(** * stm32-power.py: power control of the STM32 board through a Kasa smart plug

    A shallow embedding of [tools/stm32-power.py].  The script is a thin
    dispatcher over the python-kasa client: every handler connects, refreshes
    the device object and then reads or switches the relay.  The client
    library, the network behind it and the passage of time are the
    environment; the handlers are coroutines threading that environment, the
    lines printed so far and a log of the calls made on the client. *)

From Stdlib Require Import String Ascii List ZArith Lia Bool DecimalString.
Import ListNotations.
Local Open Scope string_scope.
Local Open Scope Z_scope.

(** ** Python values *)

(** An instance of a subclass of Python's [Exception]; [str(e)] is all the
    script ever asks of it. *)
Record Exception : Type := Raise { str : string }.

(** [f"{n}"] for an [int]. *)
Definition format_int (n : Z) : string := NilZero.string_of_int (Z.to_int n).

(** [repr(s)] for a [str], a character being a code point below 256.  The
    quote is the single quote unless the string holds one and no double
    quote; the quote and the backslash are escaped, tab, newline and
    carriage return are written with their letter, and the other characters
    that are not printable (controls, 127, 128 to 160, 173) as a two-digit
    lowercase [\x] escape. *)
Definition double_quote : ascii := ascii_of_nat 34.

Definition hex_digit (n : nat) : ascii :=
  nth n (list_ascii_of_string "0123456789abcdef") "0"%char.

Definition repr_char (quote c : ascii) : string :=
  let n := nat_of_ascii c in
  if Ascii.eqb c quote || Ascii.eqb c "\"%char then String "\" (String c EmptyString)
  else if Nat.eqb n 9 then "\t"
  else if Nat.eqb n 10 then "\n"
  else if Nat.eqb n 13 then "\r"
  else if Nat.ltb n 32 || Nat.eqb n 127
          || (Nat.leb 128 n && Nat.leb n 160) || Nat.eqb n 173
       then "\x" ++ String (hex_digit (Nat.div n 16)) (String (hex_digit (Nat.modulo n 16)) EmptyString)
  else String c EmptyString.

Definition repr (s : string) : string :=
  let holds q := existsb (Ascii.eqb q) (list_ascii_of_string s) in
  let quote := if holds "'"%char && negb (holds double_quote) then double_quote else "'"%char in
  String quote
    (String.concat "" (map (repr_char quote) (list_ascii_of_string s)) ++ String quote EmptyString).

(** ** Module constants *)

Definition DEFAULT_HOST : string := "192.168.4.96".
Definition CYCLE_DELAY : Z := 3.

(** ** The environment: python-kasa and the event loop

    [World] is everything outside the script (the plug, the network, the
    state cached in device objects); [Device] is a reference to a
    [kasa.Device] object.  An awaited call either returns or raises, and may
    change the world either way.  The two properties read the state cached by
    the last [update]. *)
Class Environment (World Device : Type) : Type := {
  Device_connect : string -> World -> (Exception + Device) * World;
  Device_update : Device -> World -> (Exception + unit) * World;
  Device_turn_on : Device -> World -> (Exception + unit) * World;
  Device_turn_off : Device -> World -> (Exception + unit) * World;
  Device_is_on : Device -> World -> bool;
  Device_alias : Device -> World -> string;
  asyncio_sleep : Z -> World -> World
}.

(** ** Observations *)

(** The calls the script makes on its collaborators. *)
Inductive Call (Device : Type) : Type :=
| Connect (host : string)
| Update (dev : Device)
| TurnOn (dev : Device)
| TurnOff (dev : Device)
| Sleep (seconds : Z)
| GetIsOn (dev : Device)
| GetAlias (dev : Device).
Arguments Connect {Device} host.
Arguments Update {Device} dev.
Arguments TurnOn {Device} dev.
Arguments TurnOff {Device} dev.
Arguments Sleep {Device} seconds.
Arguments GetIsOn {Device} dev.
Arguments GetAlias {Device} dev.

(** A logged call, with the exception it raised, if any. *)
Record Event (Device : Type) : Type := Ev {
  call : Call Device;
  raised : option Exception
}.
Arguments Ev {Device} call raised.
Arguments call {Device} e.
Arguments raised {Device} e.

Definition is_connect {Device} (c : Call Device) : bool :=
  match c with Connect _ => true | _ => false end.
Definition is_update {Device} (c : Call Device) : bool :=
  match c with Update _ => true | _ => false end.
Definition is_turn_on {Device} (c : Call Device) : bool :=
  match c with TurnOn _ => true | _ => false end.
Definition is_turn_off {Device} (c : Call Device) : bool :=
  match c with TurnOff _ => true | _ => false end.
Definition is_sleep {Device} (c : Call Device) : bool :=
  match c with Sleep _ => true | _ => false end.

(** How many logged calls satisfy [p]. *)
Definition count {Device} (p : Call Device -> bool) (t : list (Event Device)) : nat :=
  length (filter (fun e => p (call e)) t).

(** The device object a call is made on, if it is made on one. *)
Definition target {Device} (c : Call Device) : option Device :=
  match c with
  | Connect _ | Sleep _ => None
  | Update d | TurnOn d | TurnOff d | GetIsOn d | GetAlias d => Some d
  end.

(** A call made on the device object [dev], or a wait. *)
Definition on_device {Device} (dev : Device) (c : Call Device) : Prop :=
  match target c with
  | Some d => d = dev
  | None => is_sleep c = true
  end.

(** No call follows one that raised: at most the last logged call raised. *)
Fixpoint raises_only_last {Device} (t : list (Event Device)) : bool :=
  match t with
  | [] => true
  | ev :: rest =>
      match raised ev with
      | None => raises_only_last rest
      | Some _ => match rest with [] => true | _ :: _ => false end
      end
  end.

(** ** Coroutines *)

Section Script.

Context {World Device : Type} {env : Environment World Device}.

(** What a run has done so far: the world it left, the calls it made (oldest
    first) and the lines it printed on standard output, one per [print]. *)
Record State : Type := St {
  world : World;
  trace : list (Event Device);
  stdout : list string
}.

(** An [async def] body: it returns or raises, and leaves a state. *)
Definition Coro (A : Type) : Type := State -> (Exception + A) * State.

Definition ret {A} (a : A) : Coro A := fun s => (inr a, s).

Definition bind {A B} (m : Coro A) (k : A -> Coro B) : Coro B :=
  fun s =>
    match m s with
    | (inr a, s') => k a s'
    | (inl e, s') => (inl e, s')
    end.

Definition log (c : Call Device) (r : option Exception) (w : World) (s : State) : State :=
  St w (trace s ++ [Ev c r]) (stdout s).

(** Awaiting a call of the client library: the call is logged with its
    outcome, and an exception propagates. *)
Definition await {A} (c : Call Device) (op : World -> (Exception + A) * World) : Coro A :=
  fun s =>
    match op (world s) with
    | (inr a, w) => (inr a, log c None w s)
    | (inl e, w) => (inl e, log c (Some e) w s)
    end.

(** Reading a property of the device object. *)
Definition read {A} (c : Call Device) (get : World -> A) : Coro A :=
  fun s => (inr (get (world s)), log c None (world s) s).

(** [await asyncio.sleep(n)]. *)
Definition sleep (n : Z) : Coro unit :=
  fun s => (inr tt, log (Sleep n) None (asyncio_sleep n (world s)) s).

(** [print(line)]. *)
Definition print (line : string) : Coro unit :=
  fun s => (inr tt, St (world s) (trace s) (stdout s ++ [line])).

End Script.

Arguments State : clear implicits.
Arguments Coro : clear implicits.

Declare Scope coro_scope.
Delimit Scope coro_scope with coro.
Notation "x <- m ;; k" := (bind m (fun x => k))
  (at level 61, m at next level, right associativity) : coro_scope.
Notation "m ;; k" := (bind m (fun _ => k))
  (at level 61, right associativity) : coro_scope.
Local Open Scope coro_scope.

(** ** The handlers *)

Section Handlers.

Context {World Device : Type} {env : Environment World Device}.

Definition get_device (host : string) : Coro World Device Device :=
  dev <- await (Connect host) (Device_connect host) ;;
  await (Update dev) (Device_update dev) ;;
  ret dev.

Definition cmd_status (host : string) : Coro World Device unit :=
  dev <- get_device host ;;
  on <- read (GetIsOn dev) (Device_is_on dev) ;;
  let state := if on then "ON" else "OFF" in
  alias <- read (GetAlias dev) (Device_alias dev) ;;
  print ("Device: " ++ alias) ;;
  print ("Host:   " ++ host) ;;
  print ("State:  " ++ state).

Definition cmd_on (host : string) : Coro World Device unit :=
  dev <- get_device host ;;
  on <- read (GetIsOn dev) (Device_is_on dev) ;;
  if on then
    print "Already ON"
  else
    await (TurnOn dev) (Device_turn_on dev) ;;
    print "Turned ON".

Definition cmd_off (host : string) : Coro World Device unit :=
  dev <- get_device host ;;
  on <- read (GetIsOn dev) (Device_is_on dev) ;;
  if negb on then
    print "Already OFF"
  else
    await (TurnOff dev) (Device_turn_off dev) ;;
    print "Turned OFF".

Definition cmd_cycle (host : string) : Coro World Device unit :=
  dev <- get_device host ;;
  print "Power cycling..." ;;
  await (TurnOff dev) (Device_turn_off dev) ;;
  print ("OFF - waiting " ++ format_int CYCLE_DELAY ++ "s...") ;;
  sleep CYCLE_DELAY ;;
  await (TurnOn dev) (Device_turn_on dev) ;;
  print "ON".

End Handlers.

(** ** The command line and the dispatcher *)

(** A command line made of at most one positional argument and at most one
    [--host VALUE]: what [argparse] matched for each, if it was given.
    Splitting [sys.argv] into these is the framework's business, and so are
    the command lines of another shape ([-h], an unknown option, a second
    positional, [--host] without a value), which end inside [argparse] and
    have no value here. *)
Record CommandLine : Type := Argv {
  given_command : option string;
  given_host : option string
}.

(** The object [parser.parse_args()] returns. *)
Record Namespace : Type := Args {
  command : string;
  host : string
}.

Definition choices : list string := ["on"; "off"; "cycle"; "status"].

(** The two [add_argument] declarations on such a command line: a missing
    argument takes its default, and the command must be one of [choices];
    otherwise [parser.error] reports the offending value. *)
Definition parse_args (cl : CommandLine) : string + Namespace :=
  let command := match given_command cl with Some c => c | None => "status" end in
  let host := match given_host cl with Some h => h | None => DEFAULT_HOST end in
  if existsb (String.eqb command) choices then inr (Args command host) else inl command.

(** [d[key]] on a dict written as a literal. *)
Fixpoint getitem {V} (d : list (string * V)) (key : string) : option V :=
  match d with
  | [] => None
  | (k, v) :: d' => if String.eqb k key then Some v else getitem d' key
  end.

Section Main.

Context {World Device : Type} {env : Environment World Device}.

Definition commands : list (string * (string -> Coro World Device unit)) :=
  [("status", cmd_status); ("on", cmd_on); ("off", cmd_off); ("cycle", cmd_cycle)].

(** A finished process. *)
Record Process : Type := Proc {
  exit_code : Z;
  out : list string;
  err : list string;
  calls : list (Event Device);
  final : World
}.

(** How an invocation ends: [argparse] rejects the command line (usage
    message, exit status 2, nothing run), or the script runs to its exit. *)
Inductive Outcome : Type :=
| Rejected (bad : string)
| Ran (p : Process).

(** [asyncio.run(coro)] in a fresh process: nothing called or printed yet. *)
Definition asyncio_run {A} (coro : Coro World Device A) (w : World) :
  (Exception + A) * State World Device :=
  coro (St w [] []).

(** The [try] block of [main].  The lookup in [commands] is inside it; its
    [KeyError], whose [str] is the [repr] of the key, cannot happen for a
    command that passed [choices]. *)
Definition dispatch (args : Namespace) (w : World) : Process :=
  let coro :=
    match getitem commands (command args) with
    | Some cmd => cmd (host args)
    | None => fun s => (inl (Raise (repr (command args))), s)
    end in
  match asyncio_run coro w with
  | (inr _, s) => Proc 0 (stdout s) [] (trace s) (world s)
  | (inl e, s) => Proc 1 (stdout s) ["Error: " ++ str e] (trace s) (world s)
  end.

Definition main (cl : CommandLine) (w : World) : Outcome :=
  match parse_args cl with
  | inl bad => Rejected bad
  | inr args => Ran (dispatch args w)
  end.

End Main.

(** The same environment, except that the two properties of the device
    object answer [is_on] and [alias]. *)
Definition with_properties {World Device : Type} (env : Environment World Device)
    (is_on : Device -> World -> bool) (alias : Device -> World -> string) :
  Environment World Device :=
  {| Device_connect := @Device_connect _ _ env;
     Device_update := @Device_update _ _ env;
     Device_turn_on := @Device_turn_on _ _ env;
     Device_turn_off := @Device_turn_off _ _ env;
     Device_is_on := is_on;
     Device_alias := alias;
     asyncio_sleep := @asyncio_sleep _ _ env |}.

(** The bytes a stream received: every printed line ends in a newline. *)
Definition newline : string := String (ascii_of_nat 10) EmptyString.
Definition text (lines : list string) : string :=
  String.concat "" (map (fun l => l ++ newline) lines).

(** ** A plug to test against

    A relay, the state the device object cached at its last [update], and a
    list of client calls that currently fail. *)
Module Mock.

Inductive Op : Type := OpConnect | OpUpdate | OpTurnOn | OpTurnOff.

Definition op_eqb (a b : Op) : bool :=
  match a, b with
  | OpConnect, OpConnect | OpUpdate, OpUpdate
  | OpTurnOn, OpTurnOn | OpTurnOff, OpTurnOff => true
  | _, _ => false
  end.

Record Plug : Type := {
  relay : bool;
  cached : bool;
  label : string;
  address : string;
  broken : list Op
}.

Definition fails (op : Op) (p : Plug) : bool := existsb (op_eqb op) (broken p).

Definition set_relay (b : bool) (p : Plug) : Plug :=
  {| relay := b; cached := cached p; label := label p; address := address p; broken := broken p |}.

Definition refresh (p : Plug) : Plug :=
  {| relay := relay p; cached := relay p; label := label p; address := address p; broken := broken p |}.

(** The device object is identified by the host it was connected to. *)
#[global] Instance plug_env : Environment Plug string := {|
  Device_connect := fun host p =>
    if fails OpConnect p then (inl (Raise ("Unable to connect to the device: " ++ host)), p)
    else (inr host, p);
  Device_update := fun _ p =>
    if fails OpUpdate p then (inl (Raise "Unable to query the device"), p)
    else (inr tt, refresh p);
  Device_turn_on := fun _ p =>
    if fails OpTurnOn p then (inl (Raise "Device did not respond"), p)
    else (inr tt, set_relay true p);
  Device_turn_off := fun _ p =>
    if fails OpTurnOff p then (inl (Raise "Device did not respond"), p)
    else (inr tt, set_relay false p);
  Device_is_on := fun _ p => cached p;
  Device_alias := fun _ p => label p;
  asyncio_sleep := fun _ p => p
|}.

(** A plug whose device object starts with a stale cache. *)
Definition plug (on : bool) (broken : list Op) : Plug :=
  {| relay := on; cached := negb on; label := "STM32 bench"; address := "10.0.0.7"; broken := broken |}.

(** Another plug, with another name and reporting another address. *)
Definition spare : Plug :=
  {| relay := false; cached := true; label := "Lab spare"; address := "10.0.0.99"; broken := [] |}.

End Mock.

(** ** Running the script *)

Ltac run_script :=
  unfold main, dispatch, asyncio_run in *; simpl in *;
  unfold cmd_status, cmd_on, cmd_off, cmd_cycle, get_device,
    bind, await, read, sleep, print, ret, log in *;
  simpl in *.

(** Case analysis on the outcome of the next call of the client library. *)
Ltac next_call :=
  match goal with
  | |- context [Device_connect ?a ?x] =>
      let E := fresh "Hconnect" in
      destruct (Device_connect a x) as [[?e|?dev] ?w] eqn:E
  | |- context [Device_update ?a ?x] =>
      let E := fresh "Hupdate" in
      destruct (Device_update a x) as [[?e|[]] ?w] eqn:E
  | |- context [Device_turn_off ?a ?x] =>
      let E := fresh "Hoff" in
      destruct (Device_turn_off a x) as [[?e|[]] ?w] eqn:E
  | |- context [Device_turn_on ?a ?x] =>
      let E := fresh "Hon" in
      destruct (Device_turn_on a x) as [[?e|[]] ?w] eqn:E
  | |- context [Device_is_on ?a ?x] =>
      let E := fresh "Hstate" in
      destruct (Device_is_on a x) eqn:E
  end; simpl in *.

(** Walking a concrete log [x1 :: ... :: xn = pre ++ ev :: post] down to the
    position of [ev]. *)
Ltac peel H :=
  repeat match type of H with
         | _ :: _ = app ?pre (_ :: _) =>
             let x := fresh "x" in
             let Hhd := fresh "Hhd" in
             destruct pre as [| x pre]; simpl in H; injection H as Hhd H;
             [ | subst x ]
         | [] = app ?pre (_ :: _) => destruct pre; discriminate H
         end.

(** * Properties *)

Lemma parse_args_inr (cl : CommandLine) (args : Namespace) :
  parse_args cl = inr args ->
  In (command args) choices /\
  command args = match given_command cl with Some c => c | None => "status" end /\
  host args = match given_host cl with Some h => h | None => DEFAULT_HOST end.
Proof.
  unfold parse_args.
  destruct (existsb _ choices) eqn:E; [|discriminate].
  intros [= <-]. simpl. repeat split.
  apply existsb_exists in E. destruct E as [c [Hin Heq]].
  apply String.eqb_eq in Heq. subst c. exact Hin.
Qed.

Section Properties.

Context {World Device : Type} {env : Environment World Device}.

Lemma main_ran (cl : CommandLine) (w : World) (p : Process) :
  main cl w = Ran p ->
  exists args, parse_args cl = inr args /\ p = dispatch args w.
Proof.
  unfold main. destruct (parse_args cl) as [bad|args]; [discriminate|].
  intros [= <-]. now exists args.
Qed.

(** The commands a run can be dispatched to: the four handlers. *)
Lemma main_cases (cl : CommandLine) (w : World) (p : Process) :
  main cl w = Ran p ->
  exists c h, parse_args cl = inr (Args c h) /\ p = dispatch (Args c h) w /\
    (c = "on" \/ c = "off" \/ c = "cycle" \/ c = "status").
Proof.
  intros H. apply main_ran in H. destruct H as [[c h] [Hp ->]].
  exists c, h. repeat split; trivial.
  apply parse_args_inr in Hp. destruct Hp as [Hin _]. simpl in Hin.
  intuition auto.
Qed.

Lemma main_parsed (cl : CommandLine) (args : Namespace) (w : World) :
  parse_args cl = inr args -> main cl w = Ran (dispatch args w).
Proof. unfold main. now intros ->. Qed.

(** C1. Once connect, update, turn_off and turn_on all return, [cycle] makes
    exactly the calls connect(host), update, turn_off, sleep(3), turn_on, in
    that order and whatever [is_on] would answer (it is never read), prints
    the three lines "Power cycling...", "OFF - waiting 3s..." and "ON",
    writes nothing on standard error and exits with status 0. *)
Theorem cycle_call_sequence (cl : CommandLine) (host : string)
    (dev : Device) (w w1 w2 w3 w4 : World) :
  parse_args cl = inr (Args "cycle" host) ->
  Device_connect host w = (inr dev, w1) ->
  Device_update dev w1 = (inr tt, w2) ->
  Device_turn_off dev w2 = (inr tt, w3) ->
  Device_turn_on dev (asyncio_sleep CYCLE_DELAY w3) = (inr tt, w4) ->
  main cl w =
  Ran (Proc 0 ["Power cycling..."; "OFF - waiting 3s..."; "ON"] []
         [Ev (Connect host) None; Ev (Update dev) None; Ev (TurnOff dev) None;
          Ev (Sleep 3) None; Ev (TurnOn dev) None]
         w4).
Proof.
  intros Hp Hc Hu Hoff Hon. rewrite (main_parsed _ _ _ Hp).
  run_script. rewrite Hc; simpl. rewrite Hu; simpl. rewrite Hoff; simpl.
  rewrite Hon; simpl. reflexivity.
Qed.

(** C2. Whatever the command, a call that raises is caught by the
    dispatcher: standard error receives the single line "Error: <message>"
    and the exit status is 1; when no call raises, standard error stays
    empty and the exit status is 0. *)
Theorem failure_is_reported (cl : CommandLine) (w : World) (p : Process) :
  main cl w = Ran p ->
  (forall ev e, In ev (calls p) -> raised ev = Some e ->
     err p = ["Error: " ++ str e] /\ exit_code p = 1) /\
  ((forall ev, In ev (calls p) -> raised ev = None) ->
     err p = [] /\ exit_code p = 0).
Proof.
  intros H. apply main_cases in H. destruct H as (c & h & _ & -> & Hc).
  split; [intros ev e' Hin Hr; revert Hin | intros Hall; apply Forall_forall in Hall; revert Hall].
  all: destruct Hc as [-> | [-> | [-> | ->]]]; run_script; repeat next_call.
  all: try (intros Hin;
            repeat match type of Hin with
                   | _ \/ _ => destruct Hin as [<- | Hin]; [simpl in Hr; try discriminate Hr|]
                   end;
            try contradiction; split; congruence).
  all: intros Hall; try (now split).
  all: repeat match goal with
              | F : Forall _ (_ :: _) |- _ => inversion F; clear F; subst
              end.
  all: simpl in *; discriminate.
Qed.

(** C3. When the turn_off call of [cycle] raises, the run has issued no
    turn_on call and has not entered the wait, and the exit status is 1. *)
Theorem cycle_stops_when_turn_off_fails (cl : CommandLine) (host : string)
    (w : World) (p : Process) (dev : Device) (e : Exception) :
  parse_args cl = inr (Args "cycle" host) ->
  main cl w = Ran p ->
  In (Ev (TurnOff dev) (Some e)) (calls p) ->
  count is_turn_on (calls p) = 0%nat /\
  count is_sleep (calls p) = 0%nat /\
  exit_code p = 1.
Proof.
  intros Hp H. rewrite (main_parsed _ _ _ Hp) in H. injection H as <-.
  run_script. repeat next_call.
  all: intros Hin.
  all: repeat match type of Hin with
              | _ \/ _ => destruct Hin as [Hin | Hin]; [try discriminate Hin|]
              end.
  all: try contradiction.
  all: repeat split.
Qed.

(** C4. [on], finding [is_on] true after the refresh, prints exactly
    "Already ON", issues no turn_on call and ends as a success: exit status
    0 and nothing on standard error. *)
Theorem on_when_already_on (cl : CommandLine) (host : string)
    (dev : Device) (w w1 w2 : World) :
  parse_args cl = inr (Args "on" host) ->
  Device_connect host w = (inr dev, w1) ->
  Device_update dev w1 = (inr tt, w2) ->
  Device_is_on dev w2 = true ->
  let p := Proc 0 ["Already ON"] []
             [Ev (Connect host) None; Ev (Update dev) None; Ev (GetIsOn dev) None] w2 in
  main cl w = Ran p /\ count is_turn_on (calls p) = 0%nat.
Proof.
  intros Hp Hc Hu Hs. rewrite (main_parsed _ _ _ Hp).
  run_script. rewrite Hc; simpl. rewrite Hu; simpl. rewrite Hs; simpl.
  now split.
Qed.

(** C5. [on], finding [is_on] false after the refresh, issues exactly one
    turn_on call; once that call returns, it has printed exactly
    "Turned ON" and exits with status 0. *)
Theorem on_when_off (cl : CommandLine) (host : string)
    (dev : Device) (w w1 w2 : World) :
  parse_args cl = inr (Args "on" host) ->
  Device_connect host w = (inr dev, w1) ->
  Device_update dev w1 = (inr tt, w2) ->
  Device_is_on dev w2 = false ->
  exists p, main cl w = Ran p /\
    count is_turn_on (calls p) = 1%nat /\
    In (TurnOn dev) (map call (calls p)) /\
    forall w3, Device_turn_on dev w2 = (inr tt, w3) ->
      p = Proc 0 ["Turned ON"] []
            [Ev (Connect host) None; Ev (Update dev) None; Ev (GetIsOn dev) None;
             Ev (TurnOn dev) None] w3.
Proof.
  intros Hp Hc Hu Hs. rewrite (main_parsed _ _ _ Hp).
  eexists; split; [reflexivity|].
  run_script. rewrite Hc; simpl. rewrite Hu; simpl. rewrite Hs; simpl.
  next_call; (repeat split; [tauto|]); intros w3 [= <-]; reflexivity.
Qed.

(** C6. [off], finding [is_on] false after the refresh, prints exactly
    "Already OFF" and issues no turn_off call; finding it true, it issues
    exactly one turn_off call and, once that call returns, has printed
    exactly "Turned OFF". *)
Theorem off_both_states (cl : CommandLine) (host : string)
    (dev : Device) (w w1 w2 : World) :
  parse_args cl = inr (Args "off" host) ->
  Device_connect host w = (inr dev, w1) ->
  Device_update dev w1 = (inr tt, w2) ->
  exists p, main cl w = Ran p /\
    (Device_is_on dev w2 = false ->
       p = Proc 0 ["Already OFF"] []
             [Ev (Connect host) None; Ev (Update dev) None; Ev (GetIsOn dev) None] w2 /\
       count is_turn_off (calls p) = 0%nat) /\
    (Device_is_on dev w2 = true ->
       count is_turn_off (calls p) = 1%nat /\
       In (TurnOff dev) (map call (calls p)) /\
       forall w3, Device_turn_off dev w2 = (inr tt, w3) ->
         p = Proc 0 ["Turned OFF"] []
               [Ev (Connect host) None; Ev (Update dev) None; Ev (GetIsOn dev) None;
                Ev (TurnOff dev) None] w3).
Proof.
  intros Hp Hc Hu. rewrite (main_parsed _ _ _ Hp).
  eexists; split; [reflexivity|].
  run_script. rewrite Hc; simpl. rewrite Hu; simpl.
  destruct (Device_is_on dev w2); simpl; (split; [|]); intros Hs; try discriminate Hs.
  - next_call; (repeat split; [tauto|]); intros w3 [= <-]; reflexivity.
  - now split.
Qed.

(** C7. [status] issues no turn_on and no turn_off call, whatever [is_on]
    is; once connect and update have returned it prints exactly the three
    lines "Device: <alias>", "Host:   <host>" and "State:  ON" or
    "State:  OFF" after [is_on], and leaves the world as the refresh left
    it. *)
Theorem status_only_reads (cl : CommandLine) (host : string)
    (w : World) (p : Process) :
  parse_args cl = inr (Args "status" host) ->
  main cl w = Ran p ->
  count is_turn_on (calls p) = 0%nat /\
  count is_turn_off (calls p) = 0%nat /\
  forall dev w1 w2,
    Device_connect host w = (inr dev, w1) ->
    Device_update dev w1 = (inr tt, w2) ->
    p = Proc 0
          ["Device: " ++ Device_alias dev w2;
           "Host:   " ++ host;
           "State:  " ++ (if Device_is_on dev w2 then "ON" else "OFF")]
          []
          [Ev (Connect host) None; Ev (Update dev) None;
           Ev (GetIsOn dev) None; Ev (GetAlias dev) None]
          w2.
Proof.
  intros Hp H. rewrite (main_parsed _ _ _ Hp) in H. injection H as <-.
  run_script. repeat next_call.
  all: repeat split.
  all: intros d wa wb [= <- <-] Hu; rewrite Hu in Hupdate.
  all: inversion Hupdate; subst; rewrite Hstate; reflexivity.
Qed.

(** C8. Every command starts with the one connect call of the run, on the
    host of the command line.  When it returns a device object, the very
    next call refreshes that object; nothing follows a refresh that raised,
    and every later call is made on that same object (or is the wait of
    [cycle]).  When connect raises, nothing else is called. *)
Theorem connect_then_refresh (cl : CommandLine) (args : Namespace)
    (w : World) (p : Process) :
  parse_args cl = inr args ->
  main cl w = Ran p ->
  exists r rest,
    calls p = Ev (Connect (host args)) r :: rest /\
    count is_connect (calls p) = 1%nat /\
    match Device_connect (host args) w with
    | (inl e, _) => r = Some e /\ rest = []
    | (inr dev, w1) =>
        r = None /\
        exists r' rest',
          rest = Ev (Update dev) r' :: rest' /\
          r' = match fst (Device_update dev w1) with
               | inl e => Some e
               | inr _ => None
               end /\
          (r' <> None -> rest' = []) /\
          Forall (fun ev => on_device dev (call ev)) rest'
    end.
Proof.
  intros Hp H. rewrite (main_parsed _ _ _ Hp) in H. injection H as <-.
  apply parse_args_inr in Hp. destruct Hp as [Hin _].
  destruct args as [c h]. simpl in Hin.
  destruct Hin as [<- | [<- | [<- | [<- | []]]]];
    run_script; repeat next_call.
  all: do 2 eexists; split; [reflexivity|]; split; [reflexivity|].
  all: split; [reflexivity|]; try reflexivity.
  all: do 2 eexists; split; [reflexivity|]; split; [reflexivity|].
  all: split; [try congruence; reflexivity|].
  all: repeat constructor.
Qed.

(** The lookup in [commands] succeeds on every accepted command. *)
Lemma commands_total (c : string) :
  In c choices -> exists cmd, getitem (commands (env := env)) c = Some cmd.
Proof.
  simpl. intros [<- | [<- | [<- | [<- | []]]]]; eexists; reflexivity.
Qed.

(** Whatever the command, the first call is connect, on the parsed host. *)
Lemma first_call_connects (args : Namespace) (w : World) :
  In (command args) choices ->
  exists r rest, calls (dispatch args w) = Ev (Connect (host args)) r :: rest.
Proof.
  destruct args as [c h]. simpl.
  intros [<- | [<- | [<- | [<- | []]]]];
    run_script; repeat next_call; do 2 eexists; reflexivity.
Qed.

(** X11. A run that fails in connect or in the refresh prints nothing on
    standard output, whatever the command. *)
Lemma early_failure_prints_nothing (cl : CommandLine) (w : World) (p : Process)
    (c : Call Device) (e : Exception) :
  main cl w = Ran p ->
  In (Ev c (Some e)) (calls p) ->
  is_connect c = true \/ is_update c = true ->
  out p = [].
Proof.
  intros H. apply main_cases in H. destruct H as (k & h & _ & -> & Hk).
  intros Hin Hc. revert Hin.
  destruct Hk as [-> | [-> | [-> | ->]]]; run_script; repeat next_call.
  all: intros Hin; trivial.
  all: repeat match type of Hin with
              | _ \/ _ => destruct Hin as [Hin | Hin]; [try discriminate Hin|]
              end.
  all: try contradiction.
  all: injection Hin as <- _; simpl in Hc; destruct Hc; discriminate.
Qed.

(** C9. Without [--host], the script runs and its first call is connect on
    "192.168.4.96"; with [--host h], it runs and its first call is connect on
    [h] itself; without a command, it runs and the run is the one of
    [cmd_status], the same as when "status" is given. *)
Theorem defaults_and_overrides (w : World) :
  (forall c, In c choices ->
     exists p r rest,
       main (Argv (Some c) None) w = Ran p /\
       calls p = Ev (Connect "192.168.4.96") r :: rest) /\
  (forall c h, In c choices ->
     exists p r rest,
       main (Argv (Some c) (Some h)) w = Ran p /\
       calls p = Ev (Connect h) r :: rest) /\
  (forall oh,
     let h := match oh with Some h => h | None => "192.168.4.96" end in
     let s := snd (asyncio_run (cmd_status h) w) in
     exists p r rest,
       main (Argv None oh) w = Ran p /\
       main (Argv (Some "status") oh) w = Ran p /\
       calls p = Ev (Connect h) r :: rest /\
       calls p = trace s /\ out p = stdout s /\ final p = world s).
Proof.
  assert (Hrun : forall c h, In c choices ->
            forall oh, h = match oh with Some h => h | None => DEFAULT_HOST end ->
            main (Argv (Some c) oh) w = Ran (dispatch (Args c h) w)).
  { intros c h Hin oh ->. apply main_parsed. unfold parse_args. simpl in Hin.
    destruct Hin as [<- | [<- | [<- | [<- | []]]]]; reflexivity. }
  repeat split.
  - intros c Hin.
    destruct (first_call_connects (Args c DEFAULT_HOST) w Hin) as (r & rest & Hcalls).
    exists (dispatch (Args c DEFAULT_HOST) w), r, rest.
    split; [now apply (Hrun c DEFAULT_HOST Hin None) | exact Hcalls].
  - intros c h Hin.
    destruct (first_call_connects (Args c h) w Hin) as (r & rest & Hcalls).
    exists (dispatch (Args c h) w), r, rest.
    split; [now apply (Hrun c h Hin (Some h)) | exact Hcalls].
  - intros oh h s.
    assert (Hin : In "status" choices) by (simpl; tauto).
    destruct (first_call_connects (Args "status" h) w Hin) as (r & rest & Hcalls).
    exists (dispatch (Args "status" h) w), r, rest.
    split; [apply main_parsed; reflexivity|].
    split; [now apply (Hrun "status" h Hin oh)|].
    split; [exact Hcalls|].
    subst s. unfold dispatch, asyncio_run. simpl.
    destruct (cmd_status h _) as [[e|[]] s']; simpl; auto.
Qed.

End Properties.

(** C10. The second line [status] prints is "Host:   " followed by the host
    of the command line, whatever the device answers: it is the only second
    line a run can print, and two runs with the same command line against
    any two devices, each reaching its end, print the same one. *)
Theorem host_line_echoes_argument {World1 Device1 World2 Device2 : Type}
    {env1 : Environment World1 Device1} {env2 : Environment World2 Device2}
    (cl : CommandLine) (host : string)
    (wa : World1) (wb : World2)
    (pa : Process (World := World1) (Device := Device1))
    (pb : Process (World := World2) (Device := Device2)) :
  parse_args cl = inr (Args "status" host) ->
  main cl wa = Ran pa ->
  main cl wb = Ran pb ->
  (forall l, nth_error (out pa) 1 = Some l -> l = "Host:   " ++ host) /\
  (exit_code pa = 0 -> exit_code pb = 0 ->
     nth_error (out pa) 1 = Some ("Host:   " ++ host) /\
     nth_error (out pb) 1 = nth_error (out pa) 1).
Proof.
  intros Hp Ha Hb.
  rewrite (main_parsed _ _ _ Hp) in Ha. rewrite (main_parsed _ _ _ Hp) in Hb.
  injection Ha as <-. injection Hb as <-.
  split.
  - run_script. repeat next_call; intros l [= <-]; reflexivity.
  - run_script. repeat next_call; intros Ea Eb; try discriminate; now split.
Qed.

(** The bytes standard output receives from a successful [cycle]. *)
Example cycle_stdout_bytes :
  text ["Power cycling..."; "OFF - waiting " ++ format_int CYCLE_DELAY ++ "s..."; "ON"] =
  "Power cycling..." ++ newline ++ "OFF - waiting 3s..." ++ newline ++ "ON" ++ newline.
Proof. reflexivity. Qed.

(** ** The properties at work on the test plug *)

Lemma cycle_call_sequence_witness :
  main (Argv (Some "cycle") (Some "10.0.0.7")) (Mock.plug true []) =
  Ran (Proc 0 ["Power cycling..."; "OFF - waiting 3s..."; "ON"] []
         [Ev (Connect "10.0.0.7") None; Ev (Update "10.0.0.7") None;
          Ev (TurnOff "10.0.0.7") None; Ev (Sleep 3) None; Ev (TurnOn "10.0.0.7") None]
         (Mock.set_relay true (Mock.set_relay false (Mock.refresh (Mock.plug true []))))) /\
  main (Argv (Some "cycle") (Some "10.0.0.7")) (Mock.plug false []) =
  Ran (Proc 0 ["Power cycling..."; "OFF - waiting 3s..."; "ON"] []
         [Ev (Connect "10.0.0.7") None; Ev (Update "10.0.0.7") None;
          Ev (TurnOff "10.0.0.7") None; Ev (Sleep 3) None; Ev (TurnOn "10.0.0.7") None]
         (Mock.set_relay true (Mock.set_relay false (Mock.refresh (Mock.plug false []))))).
Proof.
  split.
  - apply (cycle_call_sequence (Argv (Some "cycle") (Some "10.0.0.7")) "10.0.0.7" "10.0.0.7"
             (Mock.plug true []) (Mock.plug true []) (Mock.refresh (Mock.plug true []))
             (Mock.set_relay false (Mock.refresh (Mock.plug true []))));
      reflexivity.
  - apply (cycle_call_sequence (Argv (Some "cycle") (Some "10.0.0.7")) "10.0.0.7" "10.0.0.7"
             (Mock.plug false []) (Mock.plug false []) (Mock.refresh (Mock.plug false []))
             (Mock.set_relay false (Mock.refresh (Mock.plug false []))));
      reflexivity.
Defined.

Lemma failure_is_reported_witness :
  err (dispatch (Args "on" DEFAULT_HOST) (Mock.plug false [Mock.OpTurnOn])) =
    ["Error: Device did not respond"] /\
  exit_code (dispatch (Args "on" DEFAULT_HOST) (Mock.plug false [Mock.OpTurnOn])) = 1 /\
  err (dispatch (Args "off" DEFAULT_HOST) (Mock.plug true [])) = [] /\
  exit_code (dispatch (Args "off" DEFAULT_HOST) (Mock.plug true [])) = 0.
Proof.
  destruct (failure_is_reported (Argv (Some "on") None) (Mock.plug false [Mock.OpTurnOn])
              (dispatch (Args "on" DEFAULT_HOST) (Mock.plug false [Mock.OpTurnOn]))
              eq_refl) as [Hfail _].
  destruct (failure_is_reported (Argv (Some "off") None) (Mock.plug true [])
              (dispatch (Args "off" DEFAULT_HOST) (Mock.plug true []))
              eq_refl) as [_ Hok].
  destruct (Hfail (Ev (TurnOn DEFAULT_HOST) (Some (Raise "Device did not respond")))
              (Raise "Device did not respond")) as [He Hx];
    [simpl; tauto | reflexivity |].
  destruct Hok as [He' Hx'].
  - intros ev Hin. simpl in Hin.
    destruct Hin as [<- | [<- | [<- | [<- | []]]]]; reflexivity.
  - repeat split; assumption.
Defined.

Lemma cycle_stops_when_turn_off_fails_witness :
  count is_turn_on (calls (dispatch (Args "cycle" DEFAULT_HOST) (Mock.plug true [Mock.OpTurnOff]))) = 0%nat /\
  count is_sleep (calls (dispatch (Args "cycle" DEFAULT_HOST) (Mock.plug true [Mock.OpTurnOff]))) = 0%nat /\
  exit_code (dispatch (Args "cycle" DEFAULT_HOST) (Mock.plug true [Mock.OpTurnOff])) = 1.
Proof.
  apply (cycle_stops_when_turn_off_fails (Argv (Some "cycle") None) DEFAULT_HOST
           (Mock.plug true [Mock.OpTurnOff]) _ DEFAULT_HOST (Raise "Device did not respond"));
    [reflexivity | reflexivity | simpl; tauto].
Defined.

Lemma on_when_already_on_witness :
  main (Argv (Some "on") None) (Mock.plug true []) =
  Ran (Proc 0 ["Already ON"] []
         [Ev (Connect DEFAULT_HOST) None; Ev (Update DEFAULT_HOST) None;
          Ev (GetIsOn DEFAULT_HOST) None]
         (Mock.refresh (Mock.plug true []))).
Proof.
  apply (on_when_already_on (Argv (Some "on") None) DEFAULT_HOST DEFAULT_HOST
           (Mock.plug true []) (Mock.plug true []) (Mock.refresh (Mock.plug true [])));
    reflexivity.
Defined.

Lemma on_when_off_witness :
  exists p, main (Argv (Some "on") None) (Mock.plug false []) = Ran p /\
    count is_turn_on (calls p) = 1%nat /\
    out p = ["Turned ON"].
Proof.
  destruct (on_when_off (Argv (Some "on") None) DEFAULT_HOST DEFAULT_HOST
              (Mock.plug false []) (Mock.plug false []) (Mock.refresh (Mock.plug false [])))
    as (p & Hmain & Hcount & _ & Hout); [reflexivity | reflexivity | reflexivity | reflexivity |].
  exists p. repeat split; trivial.
  rewrite (Hout (Mock.set_relay true (Mock.refresh (Mock.plug false [])))); reflexivity.
Defined.

Lemma off_both_states_witness :
  (exists p, main (Argv (Some "off") None) (Mock.plug false []) = Ran p /\
     out p = ["Already OFF"] /\ count is_turn_off (calls p) = 0%nat) /\
  (exists p, main (Argv (Some "off") None) (Mock.plug true []) = Ran p /\
     out p = ["Turned OFF"] /\ count is_turn_off (calls p) = 1%nat).
Proof.
  split.
  - destruct (off_both_states (Argv (Some "off") None) DEFAULT_HOST DEFAULT_HOST
                (Mock.plug false []) (Mock.plug false []) (Mock.refresh (Mock.plug false [])))
      as (p & Hmain & Hoff & _); [reflexivity | reflexivity | reflexivity |].
    exists p. destruct Hoff as [-> Hcount]; [reflexivity|]. repeat split; trivial.
  - destruct (off_both_states (Argv (Some "off") None) DEFAULT_HOST DEFAULT_HOST
                (Mock.plug true []) (Mock.plug true []) (Mock.refresh (Mock.plug true [])))
      as (p & Hmain & _ & Hon); [reflexivity | reflexivity | reflexivity |].
    exists p. destruct Hon as (Hcount & _ & Hout); [reflexivity|].
    rewrite (Hout (Mock.set_relay false (Mock.refresh (Mock.plug true [])))) in Hcount |- *
      by reflexivity.
    repeat split; trivial.
Defined.

Lemma status_only_reads_witness :
  count is_turn_on (calls (dispatch (Args "status" "bench-plug.lan") (Mock.plug true []))) = 0%nat /\
  count is_turn_off (calls (dispatch (Args "status" "bench-plug.lan") (Mock.plug true []))) = 0%nat /\
  dispatch (Args "status" "bench-plug.lan") (Mock.plug true []) =
    Proc 0 ["Device: STM32 bench"; "Host:   bench-plug.lan"; "State:  ON"] []
      [Ev (Connect "bench-plug.lan") None; Ev (Update "bench-plug.lan") None;
       Ev (GetIsOn "bench-plug.lan") None; Ev (GetAlias "bench-plug.lan") None]
      (Mock.refresh (Mock.plug true [])).
Proof.
  destruct (status_only_reads (Argv None (Some "bench-plug.lan")) "bench-plug.lan"
              (Mock.plug true []) (dispatch (Args "status" "bench-plug.lan") (Mock.plug true [])))
    as (Hon & Hoff & Hlines); [reflexivity | reflexivity |].
  split; [exact Hon|]. split; [exact Hoff|].
  apply (Hlines "bench-plug.lan" (Mock.plug true []) (Mock.refresh (Mock.plug true [])));
    reflexivity.
Defined.

Lemma connect_then_refresh_witness :
  exists r rest,
    calls (dispatch (Args "cycle" DEFAULT_HOST) (Mock.plug true [Mock.OpUpdate])) =
      Ev (Connect DEFAULT_HOST) r :: rest /\
    count is_connect (calls (dispatch (Args "cycle" DEFAULT_HOST) (Mock.plug true [Mock.OpUpdate]))) = 1%nat /\
    r = None /\
    rest = [Ev (Update DEFAULT_HOST) (Some (Raise "Unable to query the device"))].
Proof.
  destruct (connect_then_refresh (Argv (Some "cycle") None) (Args "cycle" DEFAULT_HOST)
              (Mock.plug true [Mock.OpUpdate])
              (dispatch (Args "cycle" DEFAULT_HOST) (Mock.plug true [Mock.OpUpdate])))
    as (r & rest & Hcalls & Hone & Hrest); [reflexivity | reflexivity |].
  simpl in Hrest. destruct Hrest as (Hr & r' & rest' & -> & -> & Hstop & _).
  exists r, (Ev (Update DEFAULT_HOST) (Some (Raise "Unable to query the device")) :: rest').
  repeat split; trivial.
  rewrite Hstop; [reflexivity | discriminate].
Defined.

Lemma defaults_and_overrides_witness :
  (exists p r rest,
     main (Argv None None) (Mock.plug true []) = Ran p /\
     calls p = Ev (Connect "192.168.4.96") r :: rest /\
     out p = ["Device: STM32 bench"; "Host:   192.168.4.96"; "State:  ON"]) /\
  (exists p r rest,
     main (Argv (Some "cycle") None) (Mock.plug true []) = Ran p /\
     calls p = Ev (Connect "192.168.4.96") r :: rest) /\
  (exists p r rest,
     main (Argv (Some "off") (Some "plug-7.local")) (Mock.plug true []) = Ran p /\
     calls p = Ev (Connect "plug-7.local") r :: rest).
Proof.
  destruct (defaults_and_overrides (Mock.plug true [])) as (Hdefault & Hgiven & Hstatus).
  split; [|split].
  - destruct (Hstatus None) as (p & r & rest & Hmain & _ & Hcalls & _ & Hout & _).
    exists p, r, rest. repeat split; [exact Hmain | exact Hcalls | exact Hout].
  - apply (Hdefault "cycle"). simpl; tauto.
  - apply (Hgiven "off" "plug-7.local"). simpl; tauto.
Defined.

Lemma host_line_echoes_argument_witness :
  Mock.address (Mock.plug true []) <> Mock.address Mock.spare /\
  nth_error (out (dispatch (Args "status" "192.168.4.100") (Mock.plug true []))) 1 =
    Some "Host:   192.168.4.100" /\
  nth_error (out (dispatch (Args "status" "192.168.4.100") Mock.spare)) 1 =
    nth_error (out (dispatch (Args "status" "192.168.4.100") (Mock.plug true []))) 1.
Proof.
  split; [discriminate|].
  destruct (host_line_echoes_argument (Argv None (Some "192.168.4.100")) "192.168.4.100"
              (Mock.plug true []) Mock.spare
              (dispatch (Args "status" "192.168.4.100") (Mock.plug true []))
              (dispatch (Args "status" "192.168.4.100") Mock.spare))
    as (_ & Hsame); [reflexivity | reflexivity | reflexivity |].
  apply Hsame; reflexivity.
Defined.

(** * Further properties of the handlers and of the dispatcher *)

Lemma raises_only_last_split {Device : Type} (t pre post : list (Event Device))
    (ev : Event Device) :
  raises_only_last t = true ->
  t = (pre ++ ev :: post)%list ->
  raised ev <> None ->
  post = [].
Proof.
  revert pre. induction t as [| x t IH]; intros pre Hq Ht Hr.
  - destruct pre; discriminate Ht.
  - destruct pre as [| y pre]; simpl in Ht; injection Ht as Hx Ht.
    + subst x. simpl in Hq. destruct (raised ev); [|contradiction].
      subst t. destruct post; [reflexivity | discriminate Hq].
    + subst y. simpl in Hq. destruct (raised x).
      * subst t. destruct pre; discriminate Hq.
      * now apply (IH pre).
Qed.

Section Further.

Context {World Device : Type} {env : Environment World Device}.

(** X1. No retry and no recovery: in every run, nothing is called after a
    call that raised, so the raising call, if there is one, is the last of
    the log. *)
Theorem no_call_after_failure (cl : CommandLine) (w : World) (p : Process)
    (pre post : list (Event Device)) (ev : Event Device) :
  main cl w = Ran p ->
  calls p = (pre ++ ev :: post)%list ->
  raised ev <> None ->
  post = [].
Proof.
  intros H. apply raises_only_last_split.
  apply main_cases in H. destruct H as (c & h & _ & -> & Hc).
  destruct Hc as [-> | [-> | [-> | ->]]]; run_script; repeat next_call; reflexivity.
Qed.

(** X2. A failing run of [status], [on] or [off] prints nothing on standard
    output, and a failing [cycle] never prints its last line "ON". *)
Theorem failed_run_output (cl : CommandLine) (c h : string) (w : World) (p : Process) :
  parse_args cl = inr (Args c h) ->
  main cl w = Ran p ->
  exit_code p = 1 ->
  (c <> "cycle" -> out p = []) /\ ~ In "ON" (out p).
Proof.
  intros Hp H. rewrite (main_parsed _ _ _ Hp) in H. injection H as <-.
  apply parse_args_inr in Hp. destruct Hp as [Hin _]. simpl in Hin.
  destruct Hin as [<- | [<- | [<- | [<- | []]]]];
    run_script; repeat next_call; intros Hx; try discriminate Hx.
  all: split; [intros Hc; try reflexivity; now contradiction Hc|].
  all: simpl; intros Hin.
  all: repeat match type of Hin with
              | _ \/ _ => destruct Hin as [Hin | Hin]; [discriminate Hin|]
              end.
  all: contradiction.
Qed.

(** X3. How far a failing [cycle] gets once the device is refreshed.  When
    turn_off raises, only "Power cycling..." was printed and the log stops at
    the turn_off; when turn_off returns and turn_on raises, the plug has been
    switched off and waited on, "ON" is not printed, and the world is the
    one the failed turn_on left.  Both exit with status 1 and the error
    line. *)
Theorem cycle_partial_progress (cl : CommandLine) (host : string)
    (dev : Device) (w w1 w2 : World) :
  parse_args cl = inr (Args "cycle" host) ->
  Device_connect host w = (inr dev, w1) ->
  Device_update dev w1 = (inr tt, w2) ->
  (forall e w3,
     Device_turn_off dev w2 = (inl e, w3) ->
     main cl w =
     Ran (Proc 1 ["Power cycling..."] ["Error: " ++ str e]
            [Ev (Connect host) None; Ev (Update dev) None; Ev (TurnOff dev) (Some e)]
            w3)) /\
  (forall e w3 w4,
     Device_turn_off dev w2 = (inr tt, w3) ->
     Device_turn_on dev (asyncio_sleep CYCLE_DELAY w3) = (inl e, w4) ->
     main cl w =
     Ran (Proc 1 ["Power cycling..."; "OFF - waiting 3s..."] ["Error: " ++ str e]
            [Ev (Connect host) None; Ev (Update dev) None; Ev (TurnOff dev) None;
             Ev (Sleep 3) None; Ev (TurnOn dev) (Some e)]
            w4)).
Proof.
  intros Hp Hc Hu. rewrite (main_parsed _ _ _ Hp).
  split.
  - intros e w3 Hoff. run_script.
    rewrite Hc; simpl. rewrite Hu; simpl. rewrite Hoff; simpl. reflexivity.
  - intros e w3 w4 Hoff Hon. run_script.
    rewrite Hc; simpl. rewrite Hu; simpl. rewrite Hoff; simpl. rewrite Hon; simpl.
    reflexivity.
Qed.

(** X4. [cycle] never switches the plug on without having switched it off and
    waited: whenever a turn_on call is in the log, the calls before it
    include a turn_off on the same device object that returned and the wait
    of 3 seconds. *)
Theorem cycle_turn_on_follows_off_and_wait (cl : CommandLine) (host : string)
    (w : World) (p : Process) (pre post : list (Event Device))
    (dev : Device) (r : option Exception) :
  parse_args cl = inr (Args "cycle" host) ->
  main cl w = Ran p ->
  calls p = (pre ++ Ev (TurnOn dev) r :: post)%list ->
  In (Ev (TurnOff dev) None) pre /\ In (Ev (Sleep 3) None) pre.
Proof.
  intros Hp H. rewrite (main_parsed _ _ _ Hp) in H. injection H as <-.
  run_script. repeat next_call.
  all: intros Hlog; peel Hlog.
  all: try discriminate.
  all: subst; simpl; tauto.
Qed.

(** X5. What a command never does.  No run switches the plug on twice or
    off twice; only [cycle] waits or makes both kinds of switching call;
    [on] never calls turn_off, [off] never calls turn_on. *)
Theorem commands_keep_to_their_calls (cl : CommandLine) (c h : string)
    (w : World) (p : Process) :
  parse_args cl = inr (Args c h) ->
  main cl w = Ran p ->
  (count is_turn_on (calls p) <= 1)%nat /\
  (count is_turn_off (calls p) <= 1)%nat /\
  (c <> "cycle" ->
     count is_sleep (calls p) = 0%nat /\
     (count is_turn_on (calls p) + count is_turn_off (calls p) <= 1)%nat) /\
  (c = "on" -> count is_turn_off (calls p) = 0%nat) /\
  (c = "off" -> count is_turn_on (calls p) = 0%nat).
Proof.
  intros Hp H. rewrite (main_parsed _ _ _ Hp) in H. injection H as <-.
  apply parse_args_inr in Hp. destruct Hp as [Hin _]. simpl in Hin.
  destruct Hin as [<- | [<- | [<- | [<- | []]]]];
    run_script; repeat next_call; unfold count; simpl.
  all: repeat split; try lia; try discriminate.
  all: exfalso; congruence.
Qed.

(** X6. The keys of [commands] are exactly the [choices] of the parser: the
    lookup finds a handler for every accepted command, and every handler can
    be reached from the command line. *)
Theorem commands_match_choices (c : string) :
  In c choices <-> exists cmd, getitem (commands (env := env)) c = Some cmd.
Proof.
  split.
  - simpl. intros [<- | [<- | [<- | [<- | []]]]]; eexists; reflexivity.
  - intros [cmd Hget]. unfold commands in Hget. cbn [getitem] in Hget.
    repeat match type of Hget with
           | (if String.eqb ?k c then _ else _) = _ =>
               let E := fresh "E" in
               destruct (String.eqb k c) eqn:E;
               [apply String.eqb_eq in E; subst c; simpl; tauto|]
           end.
    discriminate Hget.
Qed.

(** X8. Only [status] reads the alias and [cycle] reads neither property:
    changing what [alias] answers changes nothing in a run of [on] or
    [off], and changing what [is_on] and [alias] answer changes nothing in a
    run of [cycle], failing or not. *)
Theorem switching_ignores_unread_properties
    (is_on : Device -> World -> bool) (alias : Device -> World -> string)
    (oh : option string) (w : World) :
  main (env := with_properties env Device_is_on alias) (Argv (Some "on") oh) w =
    main (Argv (Some "on") oh) w /\
  main (env := with_properties env Device_is_on alias) (Argv (Some "off") oh) w =
    main (Argv (Some "off") oh) w /\
  main (env := with_properties env is_on alias) (Argv (Some "cycle") oh) w =
    main (Argv (Some "cycle") oh) w.
Proof.
  unfold main, parse_args. simpl.
  repeat split; f_equal; run_script; unfold with_properties; simpl;
    repeat next_call; reflexivity.
Qed.

(** X9. Exit status 0 means the whole sequence was carried out.  After a
    successful [cycle] the log is exactly connect, update, turn_off, wait,
    turn_on and all three lines are printed; after a successful [on] or
    [off] the line printed tells whether the plug was switched ("Turned ...",
    one switching call) or left alone ("Already ...", none); after a
    successful [status] three lines are printed, the second being the
    host. *)
Theorem success_means_complete (cl : CommandLine) (c h : string)
    (w : World) (p : Process) :
  parse_args cl = inr (Args c h) ->
  main cl w = Ran p ->
  exit_code p = 0 ->
  (c = "cycle" ->
     out p = ["Power cycling..."; "OFF - waiting 3s..."; "ON"] /\
     exists dev, map call (calls p) =
       [Connect h; Update dev; TurnOff dev; Sleep 3; TurnOn dev]) /\
  (c = "on" ->
     (out p = ["Already ON"] /\ count is_turn_on (calls p) = 0%nat) \/
     (out p = ["Turned ON"] /\ count is_turn_on (calls p) = 1%nat)) /\
  (c = "off" ->
     (out p = ["Already OFF"] /\ count is_turn_off (calls p) = 0%nat) \/
     (out p = ["Turned OFF"] /\ count is_turn_off (calls p) = 1%nat)) /\
  (c = "status" ->
     exists l1 l3, out p = [l1; "Host:   " ++ h; l3]).
Proof.
  intros Hp H. rewrite (main_parsed _ _ _ Hp) in H. injection H as <-.
  apply parse_args_inr in Hp. destruct Hp as [Hin _]. simpl in Hin.
  destruct Hin as [<- | [<- | [<- | [<- | []]]]];
    run_script; repeat next_call; intros Hx; try discriminate Hx.
  all: repeat split; try discriminate.
  all: try (left; split; reflexivity); try (right; split; reflexivity).
  all: try (eexists; reflexivity).
  all: do 2 eexists; reflexivity.
Qed.

(** X10. [status] and the switching commands read the plug alike: against
    the same world, a successful [status] prints "State:  ON" exactly when
    [on] answers "Already ON", and "State:  OFF" exactly when [off] answers
    "Already OFF". *)
Theorem status_agrees_with_switching (oh : option string) (w : World)
    (ps pon poff : Process) :
  main (Argv (Some "status") oh) w = Ran ps ->
  main (Argv (Some "on") oh) w = Ran pon ->
  main (Argv (Some "off") oh) w = Ran poff ->
  exit_code ps = 0 ->
  (nth_error (out ps) 2 = Some "State:  ON" <-> out pon = ["Already ON"]) /\
  (nth_error (out ps) 2 = Some "State:  OFF" <-> out poff = ["Already OFF"]).
Proof.
  unfold main, parse_args. simpl.
  intros [= <-] [= <-] [= <-].
  run_script. repeat next_call; intros Hx; try discriminate Hx.
  all: split; split; intros Hy; try discriminate Hy; reflexivity.
Qed.

End Further.

(** ** The further properties at work on the test plug *)

Lemma no_call_after_failure_witness :
  calls (dispatch (Args "cycle" DEFAULT_HOST) (Mock.plug true [Mock.OpTurnOff])) =
    ([Ev (Connect DEFAULT_HOST) None; Ev (Update DEFAULT_HOST) None] ++
     [Ev (TurnOff DEFAULT_HOST) (Some (Raise "Device did not respond"))])%list /\
  (@nil (Event string)) = [].
Proof.
  split; [reflexivity|].
  apply (no_call_after_failure (Argv (Some "cycle") None) (Mock.plug true [Mock.OpTurnOff])
           (dispatch (Args "cycle" DEFAULT_HOST) (Mock.plug true [Mock.OpTurnOff]))
           [Ev (Connect DEFAULT_HOST) None; Ev (Update DEFAULT_HOST) None] []
           (Ev (TurnOff DEFAULT_HOST) (Some (Raise "Device did not respond"))));
    [reflexivity | reflexivity | discriminate].
Defined.

Lemma failed_run_output_witness :
  exit_code (dispatch (Args "on" DEFAULT_HOST) (Mock.plug false [Mock.OpTurnOn])) = 1 /\
  out (dispatch (Args "on" DEFAULT_HOST) (Mock.plug false [Mock.OpTurnOn])) = [] /\
  ~ In "ON" (out (dispatch (Args "on" DEFAULT_HOST) (Mock.plug false [Mock.OpTurnOn]))).
Proof.
  split; [reflexivity|].
  destruct (failed_run_output (Argv (Some "on") None) "on" DEFAULT_HOST
              (Mock.plug false [Mock.OpTurnOn])
              (dispatch (Args "on" DEFAULT_HOST) (Mock.plug false [Mock.OpTurnOn])))
    as [Hnone Hnot]; [reflexivity | reflexivity | reflexivity |].
  split; [apply Hnone; discriminate | exact Hnot].
Defined.

Lemma cycle_partial_progress_witness :
  main (Argv (Some "cycle") None) (Mock.plug true [Mock.OpTurnOff]) =
    Ran (Proc 1 ["Power cycling..."] ["Error: Device did not respond"]
           [Ev (Connect DEFAULT_HOST) None; Ev (Update DEFAULT_HOST) None;
            Ev (TurnOff DEFAULT_HOST) (Some (Raise "Device did not respond"))]
           (Mock.refresh (Mock.plug true [Mock.OpTurnOff]))) /\
  main (Argv (Some "cycle") None) (Mock.plug true [Mock.OpTurnOn]) =
    Ran (Proc 1 ["Power cycling..."; "OFF - waiting 3s..."] ["Error: Device did not respond"]
           [Ev (Connect DEFAULT_HOST) None; Ev (Update DEFAULT_HOST) None;
            Ev (TurnOff DEFAULT_HOST) None; Ev (Sleep 3) None;
            Ev (TurnOn DEFAULT_HOST) (Some (Raise "Device did not respond"))]
           (Mock.set_relay false (Mock.refresh (Mock.plug true [Mock.OpTurnOn])))).
Proof.
  split.
  - destruct (cycle_partial_progress (Argv (Some "cycle") None) DEFAULT_HOST DEFAULT_HOST
                (Mock.plug true [Mock.OpTurnOff]) (Mock.plug true [Mock.OpTurnOff])
                (Mock.refresh (Mock.plug true [Mock.OpTurnOff])))
      as [Hoff _]; [reflexivity | reflexivity | reflexivity |].
    apply (Hoff (Raise "Device did not respond")). reflexivity.
  - destruct (cycle_partial_progress (Argv (Some "cycle") None) DEFAULT_HOST DEFAULT_HOST
                (Mock.plug true [Mock.OpTurnOn]) (Mock.plug true [Mock.OpTurnOn])
                (Mock.refresh (Mock.plug true [Mock.OpTurnOn])))
      as [_ Hon]; [reflexivity | reflexivity | reflexivity |].
    apply (Hon (Raise "Device did not respond")
             (Mock.set_relay false (Mock.refresh (Mock.plug true [Mock.OpTurnOn]))));
      reflexivity.
Defined.

Lemma cycle_turn_on_follows_off_and_wait_witness :
  In (Ev (TurnOff DEFAULT_HOST) None)
     [Ev (Connect DEFAULT_HOST) None; Ev (Update DEFAULT_HOST) None;
      Ev (TurnOff DEFAULT_HOST) None; Ev (Sleep 3) None] /\
  In (Ev (Sleep (Device := string) 3) None)
     [Ev (Connect DEFAULT_HOST) None; Ev (Update DEFAULT_HOST) None;
      Ev (TurnOff DEFAULT_HOST) None; Ev (Sleep 3) None].
Proof.
  apply (cycle_turn_on_follows_off_and_wait (Argv (Some "cycle") None) DEFAULT_HOST
           (Mock.plug false [])
           (dispatch (Args "cycle" DEFAULT_HOST) (Mock.plug false []))
           [Ev (Connect DEFAULT_HOST) None; Ev (Update DEFAULT_HOST) None;
            Ev (TurnOff DEFAULT_HOST) None; Ev (Sleep 3) None]
           [] DEFAULT_HOST None);
    reflexivity.
Defined.

Lemma commands_keep_to_their_calls_witness :
  (count is_turn_on (calls (dispatch (Args "on" DEFAULT_HOST) (Mock.plug false []))) <= 1)%nat /\
  count is_sleep (calls (dispatch (Args "on" DEFAULT_HOST) (Mock.plug false []))) = 0%nat /\
  count is_turn_off (calls (dispatch (Args "on" DEFAULT_HOST) (Mock.plug false []))) = 0%nat.
Proof.
  destruct (commands_keep_to_their_calls (Argv (Some "on") None) "on" DEFAULT_HOST
              (Mock.plug false [])
              (dispatch (Args "on" DEFAULT_HOST) (Mock.plug false [])))
    as (Hon & _ & Hother & Honly & _); [reflexivity | reflexivity |].
  split; [exact Hon|].
  split; [apply Hother; discriminate | apply Honly; reflexivity].
Defined.

Lemma success_means_complete_witness :
  (out (dispatch (Args "on" DEFAULT_HOST) (Mock.plug false [])) = ["Already ON"] /\
   count is_turn_on (calls (dispatch (Args "on" DEFAULT_HOST) (Mock.plug false []))) = 0%nat) \/
  (out (dispatch (Args "on" DEFAULT_HOST) (Mock.plug false [])) = ["Turned ON"] /\
   count is_turn_on (calls (dispatch (Args "on" DEFAULT_HOST) (Mock.plug false []))) = 1%nat).
Proof.
  destruct (success_means_complete (Argv (Some "on") None) "on" DEFAULT_HOST
              (Mock.plug false [])
              (dispatch (Args "on" DEFAULT_HOST) (Mock.plug false [])))
    as (_ & Hon & _); [reflexivity | reflexivity | reflexivity |].
  apply Hon. reflexivity.
Defined.

Lemma status_agrees_with_switching_witness :
  (nth_error (out (dispatch (Args "status" DEFAULT_HOST) (Mock.plug true []))) 2 =
     Some "State:  ON" <->
   out (dispatch (Args "on" DEFAULT_HOST) (Mock.plug true [])) = ["Already ON"]) /\
  (nth_error (out (dispatch (Args "status" DEFAULT_HOST) (Mock.plug true []))) 2 =
     Some "State:  OFF" <->
   out (dispatch (Args "off" DEFAULT_HOST) (Mock.plug true [])) = ["Already OFF"]).
Proof.
  apply (status_agrees_with_switching None (Mock.plug true [])
           (dispatch (Args "status" DEFAULT_HOST) (Mock.plug true []))
           (dispatch (Args "on" DEFAULT_HOST) (Mock.plug true []))
           (dispatch (Args "off" DEFAULT_HOST) (Mock.plug true [])));
    reflexivity.
Defined.

Lemma early_failure_prints_nothing_witness :
  out (dispatch (Args "cycle" DEFAULT_HOST) (Mock.plug true [Mock.OpUpdate])) = [].
Proof.
  apply (early_failure_prints_nothing (Argv (Some "cycle") None)
           (Mock.plug true [Mock.OpUpdate])
           (dispatch (Args "cycle" DEFAULT_HOST) (Mock.plug true [Mock.OpUpdate]))
           (Update DEFAULT_HOST) (Raise "Unable to query the device"));
    [reflexivity | simpl; tauto | right; reflexivity].
Defined.
